(** * Remote Operation Client of the tool-calling core (src/core/mcp_client.py)

    A shallow embedding of [MCPGitClient], of its generic call path
    [_call_mcp_tool], of the per-operation helpers and of the convenience
    entry points, followed by the properties of the request envelope, of the
    argument shaping and of the error policy. *)

From Stdlib Require Import ZArith Floats Ascii.
From stdpp Require Import gmap strings list fin_maps pretty.

Set Warnings "-register-all".
Local Open Scope Z_scope.
Local Open Scope string_scope.

(** ** Python values

    The values that travel through the client are the JSON-shaped ones:
    [None], booleans, integers, floats, strings, lists and string-keyed
    dictionaries.  Dictionaries are finite maps: Python compares them by
    their key/value content. *)

Inductive value :=
| VNone
| VBool (b : bool)
| VInt (z : Z)
| VFloat (f : float)
| VStr (s : string)
| VList (l : list value)
| VDict (d : gmap string value).

(** [bool(v)]. *)
Definition truthy (v : value) : bool :=
  match v with
  | VNone => false
  | VBool b => b
  | VInt z => negb (z =? 0)%Z
  | VFloat f => negb (PrimFloat.eqb f 0%float)
  | VStr s => negb (String.eqb s "")
  | VList l => negb (Nat.eqb (length l) 0)
  | VDict d => negb (Nat.eqb (size d) 0)
  end.

(** [a or b]. *)
Definition py_or (a b : value) : value := if truthy a then a else b.

(** [type(v).__name__]. *)
Definition type_name (v : value) : string :=
  match v with
  | VNone => "NoneType"
  | VBool _ => "bool"
  | VInt _ => "int"
  | VFloat _ => "float"
  | VStr _ => "str"
  | VList _ => "list"
  | VDict _ => "dict"
  end.

(** [{**d, **other}]: the keys of [other] win. *)
Definition dict_update (d other : gmap string value) : gmap string value :=
  other ∪ d.

(** [s.rstrip("/")]. *)
Fixpoint lstrip_slash (s : string) : string :=
  match s with
  | String "/"%char s' => lstrip_slash s'
  | _ => s
  end.

Definition rstrip_slash (s : string) : string :=
  String.rev (lstrip_slash (String.rev s)).

(** ** Exceptions *)

Inductive exn :=
| Exception (msg : string)        (* [raise Exception(msg)] *)
| AttributeError (msg : string)   (* attribute lookup on a value without it *)
| TypeError                       (* a call rejected while binding its
                                     arguments; the wording is not modelled *)
| LibraryError (cls msg : string) (* raised inside httpx: connection,
                                     timeout, body decoding *)
| BaseException (cls msg : string) (* outside the [Exception] hierarchy:
                                      [asyncio.CancelledError],
                                      [KeyboardInterrupt], [SystemExit] *).

(** [isinstance(e, Exception)]. *)
Definition is_exception (e : exn) : bool :=
  match e with
  | BaseException _ _ => false
  | _ => true
  end.

(** ** The bridge as seen through httpx *)

Inductive http_method := POST | GET.

Record request := {
  req_method : http_method;
  req_url : string;
  req_json : value;
  req_timeout : float
}.

(** [response.json()] either decodes the body or raises. *)
Record response := {
  status_code : Z;
  text : string;
  json : exn + value
}.

(** The environment of a run: the interpreter's [repr] for floats and
    containers, and the bridge, which answers a request knowing the requests
    that came before it; a transport failure is an exception. *)
Record env := {
  builtin_repr : value -> string;
  bridge : list request -> request -> exn + response
}.

(** What a run leaves behind: the requests sent and the records logged (the
    text before the exception, and the exception). *)
Record state := {
  sent : list request;
  logged : list (string * exn)
}.

(** ** The client monad: environment, state and exceptions *)

Definition M (A : Type) : Type := env -> state -> (exn + A) * state.

#[export] Instance M_ret : MRet M := fun A a _ st => (inr a, st).

#[export] Instance M_bind : MBind M := fun A B k m E st =>
  match m E st with
  | (inr a, st') => k a E st'
  | (inl e, st') => (inl e, st')
  end.

Definition raise {A} (e : exn) : M A := fun _ st => (inl e, st).

(** [try: m except Exception as e: h e]: what is raised outside the
    [Exception] hierarchy passes the handler by. *)
Definition try_except {A} (m : M A) (h : exn -> M A) : M A :=
  fun E st =>
    match m E st with
    | (inl e, st') => if is_exception e then h e E st' else (inl e, st')
    | r => r
    end.

Definition of_sum {A} (r : exn + A) : M A := fun _ st => (r, st).

(** [str(v)]. *)
Definition py_str (v : value) : M string :=
  match v with
  | VStr s => mret s
  | VNone => mret "None"
  | VBool true => mret "True"
  | VBool false => mret "False"
  | VInt z => mret (pretty z)
  | _ => fun E st => (inr (builtin_repr E v), st)
  end.

(** [v.get(key, default)]. *)
Definition py_get (v : value) (key : string) (dflt : value) : M value :=
  match v with
  | VDict d => mret (default dflt (d !! key))
  | _ => raise (AttributeError
                  ("'" ++ type_name v ++ "' object has no attribute 'get'"))
  end.

(** [async with httpx.AsyncClient(timeout=t) as client:
     await client.post(url, json=body)]. *)
Definition post (t : float) (url : string) (body : value) : M response :=
  fun E st =>
    let req := {| req_method := POST; req_url := url;
                  req_json := body; req_timeout := t |} in
    (bridge E (sent st) req,
     {| sent := sent st ++ [req]; logged := logged st |}).

(** [logger.exception(f"{prefix}{e}")]. *)
Definition log_exception (prefix : string) (e : exn) : M unit :=
  fun _ st =>
    (inr tt, {| sent := sent st; logged := logged st ++ [(prefix, e)] |}).

(** ** Binding the arguments of a call

    A call site gives positional and keyword arguments.  A parameter takes
    the next positional argument, else the keyword argument of its name, else
    its default; [**kwargs] collects the keywords left over. *)

Record call := {
  positional : list value;
  keywords : gmap string value
}.

Definition no_args : call := {| positional := []; keywords := ∅ |}.

Definition take (name : string) (dflt : option value) (c : call)
  : M (value * call) :=
  match positional c with
  | v :: ps =>
      match keywords c !! name with
      | Some _ => raise TypeError
      | None => mret (v, {| positional := ps; keywords := keywords c |})
      end
  | [] =>
      match keywords c !! name with
      | Some v =>
          mret (v, {| positional := []; keywords := delete name (keywords c) |})
      | None =>
          match dflt with
          | Some d => mret (d, c)
          | None => raise TypeError
          end
      end
  end.

(** A bound method: the receiver fills the parameter [self], so a keyword
    of that name clashes with it. *)
Definition bind_self (c : call) : M call :=
  match keywords c !! "self" with
  | Some _ => raise TypeError
  | None => mret c
  end.

(** The parameter list ends with [**kwargs]. *)
Definition rest_kwargs (c : call) : M (gmap string value) :=
  match positional c with
  | [] => mret (keywords c)
  | _ :: _ => raise TypeError
  end.

(** The parameter list ends without [**kwargs]. *)
Definition no_more (c : call) : M unit :=
  match positional c with
  | [] => if Nat.eqb (size (keywords c)) 0 then mret tt else raise TypeError
  | _ :: _ => raise TypeError
  end.

(** ** class MCPGitClient *)

Module MCPGitClient.

Record t := {
  backend_url : string;
  timeout : float
}.

(** [backend_url.rstrip("/")] on the argument as received. *)
Definition rstrip (v : value) : M string :=
  match v with
  | VStr s => mret (rstrip_slash s)
  | _ => raise (AttributeError
                  ("'" ++ type_name v ++ "' object has no attribute 'rstrip'"))
  end.

Definition __init__ (c : call) : M t :=
  '(url, c) ← take "backend_url" (Some (VStr "http://localhost:8000")) c;
  _ ← no_more c;
  url ← rstrip url;
  mret {| backend_url := url; timeout := 30 |}.

Definition _call_mcp_tool (self : t) (operation : string) (args : value)
  : M value :=
  try_except
    (response ← post (timeout self)
                  (backend_url self ++ "/api/mcp-bridge/tools/call")
                  (VDict {[ "tool" := VStr "git_tool";
                            "arguments" :=
                              VDict {[ "operation" := VStr operation;
                                       "args" := py_or args (VDict ∅) ]};
                            "context" :=
                              VDict {[ "user_id" := VStr "ai-tool-calling";
                                       "user_role" := VStr "user" ]} ]});
     if negb (status_code response =? 200)%Z then
       raise (Exception ("MCP bridge returned "
                           ++ pretty (status_code response)
                           ++ ": " ++ text response))
     else
       result ← of_sum (json response);
       success ← py_get result "success" (VBool false);
       if negb (truthy success) then
         error ← py_get result "error" (VStr "Unknown error");
         error ← py_str error;
         raise (Exception ("MCP tool call failed: " ++ error))
       else
         py_get result "result" (VDict ∅))
    (fun e =>
       _ ← log_exception "Failed to call MCP git_tool via bridge: " e;
       raise e).

Definition status (self : t) (c : call) : M value :=
  c ← bind_self c;
  kwargs ← rest_kwargs c;
  _call_mcp_tool self "status" (VDict kwargs).

Definition branch (self : t) (c : call) : M value :=
  c ← bind_self c;
  kwargs ← rest_kwargs c;
  _call_mcp_tool self "branch" (VDict kwargs).

Definition log (self : t) (c : call) : M value :=
  c ← bind_self c;
  '(limit, c) ← take "limit" (Some (VInt 10)) c;
  kwargs ← rest_kwargs c;
  _call_mcp_tool self "log"
    (VDict (dict_update {[ "limit" := limit ]} kwargs)).

Definition diff (self : t) (c : call) : M value :=
  c ← bind_self c;
  '(staged, c) ← take "staged" (Some (VBool false)) c;
  '(page, c) ← take "page" (Some (VInt 1)) c;
  '(page_size, c) ← take "page_size" (Some (VInt 1000)) c;
  kwargs ← rest_kwargs c;
  _call_mcp_tool self "diff"
    (VDict (dict_update {[ "staged" := staged; "page" := page;
                           "page_size" := page_size ]} kwargs)).

Definition add (self : t) (c : call) : M value :=
  c ← bind_self c;
  '(files, c) ← take "files" None c;
  kwargs ← rest_kwargs c;
  _call_mcp_tool self "add"
    (VDict (dict_update {[ "files" := files ]} kwargs)).

Definition commit (self : t) (c : call) : M value :=
  c ← bind_self c;
  '(message, c) ← take "message" None c;
  kwargs ← rest_kwargs c;
  _call_mcp_tool self "commit"
    (VDict (dict_update {[ "message" := message ]} kwargs)).

Definition push (self : t) (c : call) : M value :=
  c ← bind_self c;
  '(remote, c) ← take "remote" (Some (VStr "origin")) c;
  '(branch, c) ← take "branch" (Some VNone) c;
  '(force, c) ← take "force" (Some (VBool false)) c;
  kwargs ← rest_kwargs c;
  let args := dict_update {[ "remote" := remote; "force" := force ]} kwargs in
  let args := if truthy branch then <["branch" := branch]> args else args in
  _call_mcp_tool self "push" (VDict args).

Definition pull (self : t) (c : call) : M value :=
  c ← bind_self c;
  '(remote, c) ← take "remote" (Some (VStr "origin")) c;
  '(branch, c) ← take "branch" (Some VNone) c;
  kwargs ← rest_kwargs c;
  let args := dict_update {[ "remote" := remote ]} kwargs in
  let args := if truthy branch then <["branch" := branch]> args else args in
  _call_mcp_tool self "pull" (VDict args).

Definition checkout (self : t) (c : call) : M value :=
  c ← bind_self c;
  '(branch, c) ← take "branch" None c;
  kwargs ← rest_kwargs c;
  _call_mcp_tool self "checkout"
    (VDict (dict_update {[ "branch" := branch ]} kwargs)).

Definition merge (self : t) (c : call) : M value :=
  c ← bind_self c;
  '(branch, c) ← take "branch" None c;
  kwargs ← rest_kwargs c;
  _call_mcp_tool self "merge"
    (VDict (dict_update {[ "branch" := branch ]} kwargs)).

Definition rebase (self : t) (c : call) : M value :=
  c ← bind_self c;
  '(branch, c) ← take "branch" None c;
  kwargs ← rest_kwargs c;
  _call_mcp_tool self "rebase"
    (VDict (dict_update {[ "branch" := branch ]} kwargs)).

Definition reset (self : t) (c : call) : M value :=
  c ← bind_self c;
  '(mode, c) ← take "mode" (Some (VStr "mixed")) c;
  kwargs ← rest_kwargs c;
  _call_mcp_tool self "reset"
    (VDict (dict_update {[ "mode" := mode ]} kwargs)).

Definition stash (self : t) (c : call) : M value :=
  c ← bind_self c;
  '(action, c) ← take "action" (Some (VStr "push")) c;
  kwargs ← rest_kwargs c;
  _call_mcp_tool self "stash"
    (VDict (dict_update {[ "action" := action ]} kwargs)).

Definition tag (self : t) (c : call) : M value :=
  c ← bind_self c;
  '(name, c) ← take "name" None c;
  kwargs ← rest_kwargs c;
  _call_mcp_tool self "tag"
    (VDict (dict_update {[ "name" := name ]} kwargs)).

Definition remote (self : t) (c : call) : M value :=
  c ← bind_self c;
  '(action, c) ← take "action" (Some (VStr "list")) c;
  kwargs ← rest_kwargs c;
  _call_mcp_tool self "remote"
    (VDict (dict_update {[ "action" := action ]} kwargs)).

Definition fetch (self : t) (c : call) : M value :=
  c ← bind_self c;
  '(remote, c) ← take "remote" (Some (VStr "origin")) c;
  kwargs ← rest_kwargs c;
  _call_mcp_tool self "fetch"
    (VDict (dict_update {[ "remote" := remote ]} kwargs)).

Definition clone (self : t) (c : call) : M value :=
  c ← bind_self c;
  '(url, c) ← take "url" None c;
  '(directory, c) ← take "directory" (Some VNone) c;
  kwargs ← rest_kwargs c;
  let args := dict_update {[ "url" := url ]} kwargs in
  let args :=
    if truthy directory then <["directory" := directory]> args else args in
  _call_mcp_tool self "clone" (VDict args).

End MCPGitClient.

(** ** Convenience functions *)

Definition git_status_tool (c : call) : M value :=
  '(dataset_path, c) ← take "dataset_path" None c;
  _ ← no_more c;
  client ← MCPGitClient.__init__ no_args;
  MCPGitClient.status client no_args.

Definition git_commit_tool (c : call) : M value :=
  '(dataset_path, c) ← take "dataset_path" None c;
  '(message, c) ← take "message" None c;
  _ ← no_more c;
  client ← MCPGitClient.__init__ no_args;
  MCPGitClient.commit client {| positional := [message]; keywords := ∅ |}.

Definition git_add_tool (c : call) : M value :=
  '(dataset_path, c) ← take "dataset_path" None c;
  '(files, c) ← take "files" None c;
  _ ← no_more c;
  client ← MCPGitClient.__init__ no_args;
  MCPGitClient.add client {| positional := [files]; keywords := ∅ |}.

Definition git_branches_tool (c : call) : M value :=
  '(dataset_path, c) ← take "dataset_path" None c;
  _ ← no_more c;
  client ← MCPGitClient.__init__ no_args;
  MCPGitClient.branch client no_args.

Definition git_history_tool (c : call) : M value :=
  '(dataset_path, c) ← take "dataset_path" None c;
  '(limit, c) ← take "limit" (Some (VInt 10)) c;
  _ ← no_more c;
  client ← MCPGitClient.__init__ no_args;
  MCPGitClient.log client
    {| positional := []; keywords := {[ "limit" := limit ]} |}.

(** * The package module (src/core/__init__.py)

    Running the module binds the imported names, sets the feature flag and
    builds [__all__].  The imports of the core submodules are taken to
    succeed (the module does not load otherwise); the import of the NLWeb
    tools is guarded, and may fail before or after some of its names were
    bound. *)








(** * Vocabulary of the statements *)

Import MCPGitClient.

(** ** Reading a run *)

(** What a run returns or raises, and the requests sent once it is over. *)
Definition outcome {A} (r : (exn + A) * state) : exn + A := fst r.

Definition requests {A} (r : (exn + A) * state) : list request := sent (snd r).

(** [v[key]] where it exists. *)
Definition item (v : value) (key : string) : option value :=
  match v with
  | VDict d => d !! key
  | _ => None
  end.

(** The request envelope as the interface description gives it: a POST to
    [{backend_url}/api/mcp-bridge/tools/call] whose JSON body names the tool,
    the operation with its argument mapping, and the caller context. *)
Definition spec_request (self : t) (operation : string) (args : value)
  : request :=
  {| req_method := POST;
     req_url := backend_url self ++ "/api/mcp-bridge/tools/call";
     req_json :=
       VDict {[ "tool" := VStr "git_tool";
                "arguments" := VDict {[ "operation" := VStr operation;
                                        "args" := args ]};
                "context" := VDict {[ "user_id" := VStr "ai-tool-calling";
                                      "user_role" := VStr "user" ]} ]};
     req_timeout := timeout self |}.

(** [str(v)] as a function of the environment. *)
Definition str_in (E : env) (v : value) : string :=
  match v with
  | VStr s => s
  | VNone => "None"
  | VBool true => "True"
  | VBool false => "False"
  | VInt z => pretty z
  | _ => builtin_repr E v
  end.

(** The state after the one request of a call, and after the handler logged
    the exception it re-raises. *)
Definition after_post (st : state) (req : request) : state :=
  {| sent := sent st ++ [req]; logged := logged st |}.

Definition after_failure (st : state) (req : request) (e : exn) : state :=
  {| sent := sent st ++ [req];
     logged := logged st
                 ++ [("Failed to call MCP git_tool via bridge: ", e)] |}.

(** What the generic call path makes of the bridge's answer. *)
Definition verdict (E : env) (answer : exn + response) : exn + value :=
  match answer with
  | inl e => inl e
  | inr resp =>
      if (status_code resp =? 200)%Z then
        match json resp with
        | inl e => inl e
        | inr (VDict r) =>
            if truthy (default (VBool false) (r !! "success")) then
              inr (default (VDict ∅) (r !! "result"))
            else
              inl (Exception
                     ("MCP tool call failed: "
                        ++ str_in E (default (VStr "Unknown error")
                                       (r !! "error"))))
        | inr v =>
            inl (AttributeError
                   ("'" ++ type_name v ++ "' object has no attribute 'get'"))
        end
      else
        inl (Exception ("MCP bridge returned " ++ pretty (status_code resp)
                          ++ ": " ++ text resp))
  end.

(** ** The public surface of the client *)

(** The client [MCPGitClient()] of the convenience entry points. *)
Definition default_client : t :=
  {| backend_url := "http://localhost:8000"; timeout := 30 |}.

(** The per-operation helpers of the class. *)
Inductive helper :=
| Status | Branch | Log | Diff | Add | Commit | Push | Pull | Checkout
| Merge | Rebase | Reset | Stash | Tag | Remote | Fetch | Clone.

Definition helper_run (h : helper) : t → call → M value :=
  match h with
  | Status => status | Branch => branch | Log => log | Diff => diff
  | Add => add | Commit => commit | Push => push | Pull => pull
  | Checkout => checkout | Merge => merge | Rebase => rebase
  | Reset => reset | Stash => stash | Tag => tag | Remote => remote
  | Fetch => fetch | Clone => clone
  end.

(** The operation name each helper passes to the generic call path. *)
Definition helper_operation (h : helper) : string :=
  match h with
  | Status => "status" | Branch => "branch" | Log => "log" | Diff => "diff"
  | Add => "add" | Commit => "commit" | Push => "push" | Pull => "pull"
  | Checkout => "checkout" | Merge => "merge" | Rebase => "rebase"
  | Reset => "reset" | Stash => "stash" | Tag => "tag" | Remote => "remote"
  | Fetch => "fetch" | Clone => "clone"
  end.

(** The convenience entry points of the module, and the helper each one
    calls. *)
Inductive entry_point :=
| GitStatusTool | GitCommitTool | GitAddTool | GitBranchesTool
| GitHistoryTool.

Definition entry_run (p : entry_point) : call → M value :=
  match p with
  | GitStatusTool => git_status_tool
  | GitCommitTool => git_commit_tool
  | GitAddTool => git_add_tool
  | GitBranchesTool => git_branches_tool
  | GitHistoryTool => git_history_tool
  end.

Definition entry_helper (p : entry_point) : helper :=
  match p with
  | GitStatusTool => Status
  | GitCommitTool => Commit
  | GitAddTool => Add
  | GitBranchesTool => Branch
  | GitHistoryTool => Log
  end.

(** ** The error policy *)

(** The bridge's answer counts as a failure when its status is not 200, or
    when it is 200 and the decoded body holds [success = false]. *)
Definition failed_answer (resp : response) : Prop :=
  status_code resp ≠ 200
  ∨ (status_code resp = 200
     ∧ ∃ body, json resp = inr (VDict body)
               ∧ body !! "success" = Some (VBool false)).

(** The message of a failure: status and text for a transport failure, the
    body's [error] (or ["Unknown error"]) for an application failure. *)
Definition upstream_message (E : env) (resp : response) : string :=
  if (status_code resp =? 200)%Z then
    match json resp with
    | inr (VDict body) =>
        "MCP tool call failed: "
          ++ str_in E (default (VStr "Unknown error") (body !! "error"))
    | _ => EmptyString
    end
  else
    "MCP bridge returned " ++ pretty (status_code resp) ++ ": " ++ text resp.

(** ** The caller context and the argument mapping *)

Definition fixed_context : value :=
  VDict {[ "user_id" := VStr "ai-tool-calling"; "user_role" := VStr "user" ]}.

Definition carries_fixed_context (req : request) : Prop :=
  item (req_json req) "context" = Some fixed_context.

(** The [args] mapping a request carries. *)
Definition sent_args (req : request) : option value :=
  a ← item (req_json req) "arguments"; item a "args".

(** ** Calls that bind

    A call clashes when a parameter filled by position is given again by
    keyword, when more positional arguments come than there are named
    parameters, or when a keyword is named [self]; a call of a helper whose
    parameters all have defaults is accepted when it does not clash.  The
    argument bound to the parameter at index [i] is the positional one when
    there is one, else the keyword of that name, else the default. *)
Fixpoint no_clash (names : list string) (pos : list value)
    (kw : gmap string value) : Prop :=
  match pos, names with
  | [], _ => True
  | _ :: pos', name :: names' => kw !! name = None ∧ no_clash names' pos' kw
  | _ :: _, [] => False
  end.

Definition accepted (names : list string) (c : call) : Prop :=
  keywords c !! "self" = None ∧ no_clash names (positional c) (keywords c).

Definition bound_arg (i : nat) (name : string) (dflt : value) (c : call)
  : value :=
  match positional c !! i with
  | Some v => v
  | None =>
      match keywords c !! name with
      | Some v => v
      | None => dflt
      end
  end.

(** What a conditional key holds in the mapping sent: the value bound to
    the parameter when it is truthy, nothing otherwise. *)
Definition conditional (bound : option value) : option value :=
  match bound with
  | Some b => if truthy b then Some b else None
  | None => None
  end.

(** ** Concrete runs

    An environment whose bridge gives one fixed answer, the state before
    anything was sent, and three answers: a connection that fails, a
    transport failure, and the body [{"success": false, "error": "conflict"}]
    under status 200. *)

Definition quiet_env (answer : exn + response) : env :=
  {| builtin_repr := fun _ => EmptyString; bridge := fun _ _ => answer |}.

Definition fresh : state := {| sent := []; logged := [] |}.

Definition refused : exn + response :=
  inl (LibraryError "ConnectError" "All connection attempts failed").

Definition unavailable : response :=
  {| status_code := 503;
     text := "Service Unavailable";
     json := inl (LibraryError "JSONDecodeError" "Expecting value") |}.

Definition dq : string := String (ascii_of_nat 34) EmptyString.

Definition conflict_response : response :=
  {| status_code := 200;
     text := "{" ++ dq ++ "success" ++ dq ++ ": false, "
               ++ dq ++ "error" ++ dq ++ ": " ++ dq ++ "conflict" ++ dq ++ "}";
     json := inr (VDict {[ "success" := VBool false;
                           "error" := VStr "conflict" ]}) |}.

Definition empty_body : response :=
  {| status_code := 200; text := "{}"; json := inr (VDict ∅) |}.

(** A 200 answer with a result. *)
Definition log_body : response :=
  {| status_code := 200;
     text := "(body)";
     json := inr (VDict {[ "success" := VBool true;
                           "result" := VList [VStr "a1b2c3"] ]}) |}.

(** A 200 answer whose body is a JSON array. *)
Definition list_body : response :=
  {| status_code := 200; text := "[]"; json := inr (VList []) |}.

(** [push("origin", "main")]: remote and branch by position. *)
Definition push_origin_main : call :=
  {| positional := [VStr "origin"; VStr "main"]; keywords := ∅ |}.

(** A cancelled await. *)
Definition cancelled : exn + response :=
  inl (BaseException "CancelledError" EmptyString).

(** A call [f(branch=...)] with the empty string and with a branch name. *)
Definition with_empty_branch : call :=
  {| positional := []; keywords := {[ "branch" := VStr "" ]} |}.

Definition with_main_branch : call :=
  {| positional := []; keywords := {[ "branch" := VStr "main" ]} |}.


(** ** Strings of slashes *)

(** ["/" * n]. *)
Fixpoint slashes (n : nat) : string :=
  match n with
  | O => EmptyString
  | S n' => String "/"%char (slashes n')
  end.

(** ** Signatures of the helpers *)

(** The named parameters of each helper, in order, with their defaults
    ([None] for a required parameter). *)
Definition helper_params (h : helper) : list (string * option value) :=
  match h with
  | Status | Branch => []
  | Log => [("limit", Some (VInt 10))]
  | Diff => [("staged", Some (VBool false)); ("page", Some (VInt 1));
             ("page_size", Some (VInt 1000))]
  | Add => [("files", None)]
  | Commit => [("message", None)]
  | Push => [("remote", Some (VStr "origin")); ("branch", Some VNone);
             ("force", Some (VBool false))]
  | Pull => [("remote", Some (VStr "origin")); ("branch", Some VNone)]
  | Checkout | Merge | Rebase => [("branch", None)]
  | Reset => [("mode", Some (VStr "mixed"))]
  | Stash => [("action", Some (VStr "push"))]
  | Tag => [("name", None)]
  | Remote => [("action", Some (VStr "list"))]
  | Fetch => [("remote", Some (VStr "origin"))]
  | Clone => [("url", None); ("directory", Some VNone)]
  end.

(** The parameters a helper puts into the mapping only when they are
    truthy. *)
Definition helper_conditional (h : helper) : list string :=
  match h with
  | Push | Pull => ["branch"]
  | Clone => ["directory"]
  | _ => []
  end.

(** The named parameters of each entry point. *)
Definition entry_params (p : entry_point) : list string :=
  match p with
  | GitStatusTool | GitBranchesTool => ["dataset_path"]
  | GitCommitTool => ["dataset_path"; "message"]
  | GitAddTool => ["dataset_path"; "files"]
  | GitHistoryTool => ["dataset_path"; "limit"]
  end.

(** * Properties *)

(** ** Reading a run *)

Lemma py_str_run (v : value) (E : env) (st : state) :
  py_str v E st = (inr (str_in E v), st).
Proof. destruct v as [| [] | | | | |]; reflexivity. Qed.

Lemma py_or_dict (d : gmap string value) : py_or (VDict d) (VDict ∅) = VDict d.
Proof.
  unfold py_or; simpl.
  destruct (Nat.eqb_spec (size d) 0) as [Hz | Hnz]; simpl; [| reflexivity].
  apply map_size_empty_inv in Hz. by rewrite Hz.
Qed.

Lemma py_or_none : py_or VNone (VDict ∅) = VDict ∅.
Proof. reflexivity. Qed.

(** The generic call path, run: one request goes out, and the answer
    decides between the result and a logged, re-raised exception. *)
Lemma call_mcp_tool_run (self : t) (operation : string) (args : value)
    (E : env) (st : state) :
  let req := spec_request self operation (py_or args (VDict ∅)) in
  _call_mcp_tool self operation args E st =
    match verdict E (bridge E (sent st) req) with
    | inr v => (inr v, after_post st req)
    | inl e =>
        (inl e,
         if is_exception e then after_failure st req e else after_post st req)
    end.
Proof.
  intros req. subst req.
  unfold _call_mcp_tool, try_except, mbind, M_bind, post, spec_request.
  unfold verdict.
  destruct (bridge E (sent st) _) as [e | resp];
    [destruct (is_exception e); reflexivity |].
  destruct (status_code resp =? 200)%Z; simpl; [| reflexivity].
  unfold of_sum.
  destruct (json resp) as [e | v];
    [destruct (is_exception e); reflexivity |].
  destruct v as [| b | z | f | s | l | r]; try reflexivity.
  simpl. unfold mret, M_ret.
  destruct (truthy (default (VBool false) (r !! "success"))); simpl;
    [reflexivity |].
  rewrite py_str_run. reflexivity.
Qed.

(** Whatever the argument and the answer, exactly one request goes out. *)
Lemma call_mcp_tool_requests (self : t) (operation : string) (args : value)
    (E : env) (st : state) :
  requests (_call_mcp_tool self operation args E st) =
    (sent st ++ [spec_request self operation (py_or args (VDict ∅))])%list.
Proof.
  rewrite call_mcp_tool_run. unfold requests.
  destruct (verdict E _) as [e | v]; [destruct (is_exception e) |];
    reflexivity.
Qed.

(** ** The request envelope *)

(** C2: for every operation name and argument mapping the generic call path
    sends exactly one request, the POST to
    [{backend_url}/api/mcp-bridge/tools/call] whose JSON body is
    [{"tool": "git_tool", "arguments": {"operation": name, "args": mapping},
      "context": {"user_id": ..., "user_role": ...}}]; a missing mapping
    ([None]) goes out as the empty mapping. *)
Theorem call_sends_exactly_one_post (self : t) (operation : string)
    (d : gmap string value) (E : env) (st : state) :
  let req := spec_request self operation (VDict d) in
  requests (_call_mcp_tool self operation (VDict d) E st)
    = (sent st ++ [req])%list
  ∧ requests (_call_mcp_tool self operation VNone E st)
    = (sent st ++ [spec_request self operation (VDict ∅)])%list
  ∧ req_method req = POST
  ∧ req_url req = backend_url self ++ "/api/mcp-bridge/tools/call"
  ∧ req_json req
    = VDict {[ "tool" := VStr "git_tool";
               "arguments" := VDict {[ "operation" := VStr operation;
                                       "args" := VDict d ]};
               "context" := VDict {[ "user_id" := VStr "ai-tool-calling";
                                     "user_role" := VStr "user" ]} ]}.
Proof.
  repeat split.
  - rewrite call_mcp_tool_requests, py_or_dict. reflexivity.
  - rewrite call_mcp_tool_requests, py_or_none. reflexivity.
Qed.

(** C6: a client leaves its constructor with a timeout of 30 seconds,
    whatever the arguments of the construction, and every call made through
    it hands that timeout to the channel of its one request. *)
Theorem calls_carry_timeout_30 (c : call) (E : env) (st st' : state)
    (client : t) :
  __init__ c E st = (inr client, st') →
  timeout client = 30%float
  ∧ PrimFloat.is_finite (timeout client) = true
  ∧ ∀ operation args E1 st1,
      ∃ req, requests (_call_mcp_tool client operation args E1 st1)
               = (sent st1 ++ [req])%list
             ∧ req_timeout req = 30%float.
Proof.
  unfold __init__, mbind, M_bind. intros Hinit.
  destruct (take _ _ c E st) as [[e | [url c1]] s1]; [discriminate |].
  destruct (no_more c1 E s1) as [[e | []] s2]; [discriminate |].
  destruct (rstrip url E s2) as [[e | u] s3]; [discriminate |].
  injection Hinit as <- _. simpl.
  split; [reflexivity | split; [reflexivity |]].
  intros operation args E1 st1. eexists.
  rewrite call_mcp_tool_requests. split; reflexivity.
Qed.

Lemma init_default (E : env) (st : state) :
  __init__ no_args E st = (inr default_client, st).
Proof. reflexivity. Qed.

Lemma calls_carry_timeout_30_witness :
  timeout default_client = 30%float
  ∧ PrimFloat.is_finite (timeout default_client) = true
  ∧ ∀ operation args E1 st1,
      ∃ req, requests (_call_mcp_tool default_client operation args E1 st1)
               = (sent st1 ++ [req])%list
             ∧ req_timeout req = 30%float.
Proof.
  apply (calls_carry_timeout_30 no_args
           {| builtin_repr := fun _ => ""; bridge := fun _ _ => inl TypeError |}
           {| sent := []; logged := [] |} {| sent := []; logged := [] |}).
  reflexivity.
Defined.

(** ** Helpers as users of the generic call path *)

Ltac run_binding :=
  unfold bind_self, take, rest_kwargs, no_more, mbind, M_bind, mret, M_ret,
    raise;
  cbn beta iota delta [positional keywords fst snd].

(** Case analysis on how a call binds: the positional list, the keyword
    lookups and the truth tests, outermost first. *)
Ltac split_binding :=
  repeat (run_binding; rewrite ?lookup_delete_ne by done;
          match goal with
          | |- context [match ?l with [] => _ | _ :: _ => _ end] =>
              is_var l; destruct l
          | |- context [match ?m !! ?k with Some _ => _ | None => _ end] =>
              destruct (m !! k) eqn:?
          | |- context [if truthy ?v then _ else _] =>
              destruct (truthy v) eqn:?
          | |- context [if Nat.eqb (size ?m) 0 then _ else _] =>
              destruct (Nat.eqb (size m) 0) eqn:?
          end).

(** A helper either rejects the call while binding its arguments, leaving no
    trace, or hands a mapping to the generic call path under its own
    operation name. *)
Lemma helper_delegates (h : helper) (self : t) (c : call) (E : env)
    (st : state) :
  (∃ e, helper_run h self c E st = (inl e, st))
  ∨ (∃ d, helper_run h self c E st
            = _call_mcp_tool self (helper_operation h) (VDict d) E st).
Proof.
  destruct c as [pos kw].
  destruct h; cbn [helper_run helper_operation];
    unfold status, branch, log, diff, add, commit, push, pull, checkout,
      merge, rebase, reset, stash, tag, remote, fetch, clone;
    split_binding; eauto.
Qed.

(** ** The error policy *)

(** C1: when the bridge answers with a status other than 200, or with a 200
    body whose [success] is false, the call raises the generic [Exception];
    its message carries the status and text in the first case and the body's
    error string in the second; both failures are the same exception class,
    and no result value is returned. *)
Theorem failure_raises_generic_exception (self : t) (operation : string)
    (args : value) (E : env) (st : state) (resp : response) :
  bridge E (sent st) (spec_request self operation (py_or args (VDict ∅)))
    = inr resp →
  failed_answer resp →
  outcome (_call_mcp_tool self operation args E st)
    = inl (Exception (upstream_message E resp))
  ∧ (∀ v, outcome (_call_mcp_tool self operation args E st) ≠ inr v)
  ∧ (status_code resp ≠ 200 →
     upstream_message E resp
       = "MCP bridge returned " ++ pretty (status_code resp) ++ ": "
           ++ text resp)
  ∧ (∀ body msg,
       status_code resp = 200 → json resp = inr (VDict body) →
       body !! "error" = Some (VStr msg) →
       upstream_message E resp = "MCP tool call failed: " ++ msg).
Proof.
  intros Hanswer Hfailed.
  assert (Hout : outcome (_call_mcp_tool self operation args E st)
                 = inl (Exception (upstream_message E resp))).
  { rewrite call_mcp_tool_run, Hanswer. unfold verdict, upstream_message.
    destruct Hfailed as [Hstatus | (Hstatus & body & Hjson & Hsuccess)].
    - apply Z.eqb_neq in Hstatus. rewrite Hstatus. reflexivity.
    - rewrite Hstatus, Hjson, Hsuccess. reflexivity. }
  split; [exact Hout |]. split; [| split].
  - intros v Hv. rewrite Hout in Hv. discriminate.
  - intros Hstatus. unfold upstream_message.
    apply Z.eqb_neq in Hstatus. rewrite Hstatus. reflexivity.
  - intros body msg Hstatus Hjson Herror. unfold upstream_message.
    rewrite Hstatus, Hjson, Herror. reflexivity.
Qed.

Lemma conflict_is_failure : failed_answer conflict_response.
Proof. right. split; [reflexivity |]. eexists. split; reflexivity. Qed.

Lemma failure_raises_generic_exception_witness :
  outcome (_call_mcp_tool default_client "commit" VNone
             (quiet_env (inr conflict_response)) fresh)
    = inl (Exception "MCP tool call failed: conflict")
  ∧ outcome (_call_mcp_tool default_client "commit" VNone
               (quiet_env (inr unavailable)) fresh)
    = inl (Exception "MCP bridge returned 503: Service Unavailable").
Proof.
  split.
  - exact (proj1 (failure_raises_generic_exception default_client "commit"
                    VNone (quiet_env (inr conflict_response)) fresh
                    conflict_response eq_refl conflict_is_failure)).
  - refine (proj1 (failure_raises_generic_exception default_client "commit"
                     VNone (quiet_env (inr unavailable)) fresh
                     unavailable eq_refl _)).
    left. simpl. lia.
Defined.

(** C10: for a 200 answer whose body decodes to the mapping [body], the call
    returns [body]'s [result] (the empty mapping when the key is absent)
    exactly when [body]'s [success] is truthy; otherwise, and so when
    [success] is missing, it raises. *)
Theorem result_returned_iff_success_truthy (self : t) (operation : string)
    (args : value) (E : env) (st : state) (resp : response)
    (body : gmap string value) :
  bridge E (sent st) (spec_request self operation (py_or args (VDict ∅)))
    = inr resp →
  status_code resp = 200 →
  json resp = inr (VDict body) →
  let run := _call_mcp_tool self operation args E st in
  (outcome run = inr (default (VDict ∅) (body !! "result"))
   ↔ truthy (default (VBool false) (body !! "success")) = true)
  ∧ ((∃ v, outcome run = inr v)
     ↔ truthy (default (VBool false) (body !! "success")) = true)
  ∧ (body !! "success" = None → ∃ msg, outcome run = inl (Exception msg)).
Proof.
  intros Hanswer Hstatus Hjson run. subst run.
  rewrite call_mcp_tool_run, Hanswer. unfold verdict.
  rewrite Hstatus, Hjson. cbn [Z.eqb Pos.eqb].
  destruct (truthy (default (VBool false) (body !! "success"))) eqn:Hok;
    cbn [outcome fst].
  - repeat split; eauto.
    intros Hmissing. rewrite Hmissing in Hok. discriminate.
  - repeat split; try discriminate; eauto.
    intros [v Hv]. discriminate.
Qed.

Lemma result_returned_iff_success_truthy_witness :
  (outcome (_call_mcp_tool default_client "status" VNone
              (quiet_env (inr empty_body)) fresh) = inr (VDict ∅)
   ↔ false = true)
  ∧ ((∃ v, outcome (_call_mcp_tool default_client "status" VNone
                      (quiet_env (inr empty_body)) fresh) = inr v)
     ↔ false = true)
  ∧ ((∅ : gmap string value) !! "success" = None →
     ∃ msg, outcome (_call_mcp_tool default_client "status" VNone
                       (quiet_env (inr empty_body)) fresh)
              = inl (Exception msg)).
Proof.
  exact (result_returned_iff_success_truthy default_client "status" VNone
           (quiet_env (inr empty_body)) fresh empty_body ∅
           eq_refl eq_refl eq_refl).
Defined.

(** ** Requests of the helpers and of the entry points *)

(** A helper sends nothing, or the one request of its operation. *)
Lemma helper_requests (h : helper) (self : t) (c : call) (E : env)
    (st : state) :
  requests (helper_run h self c E st) = sent st
  ∨ ∃ d, requests (helper_run h self c E st)
           = (sent st
                ++ [spec_request self (helper_operation h) (VDict d)])%list.
Proof.
  destruct (helper_delegates h self c E st) as [[e ->] | [d ->]].
  - left. reflexivity.
  - right. exists d. rewrite call_mcp_tool_requests, py_or_dict. reflexivity.
Qed.

(** An entry point rejects its call, leaving no trace, or makes one call of
    its helper on a client built with the default backend. *)
Lemma entry_delegates (p : entry_point) (c : call) (E : env) (st : state) :
  (∃ e, entry_run p c E st = (inl e, st))
  ∨ (∃ c', entry_run p c E st
             = helper_run (entry_helper p) default_client c' E st).
Proof.
  destruct c as [pos kw].
  destruct p; cbn [entry_run entry_helper helper_run];
    unfold git_status_tool, git_commit_tool, git_add_tool,
      git_branches_tool, git_history_tool;
    split_binding; eauto.
Qed.

Lemma entry_requests (p : entry_point) (c : call) (E : env) (st : state) :
  requests (entry_run p c E st) = sent st
  ∨ ∃ d, requests (entry_run p c E st)
           = (sent st
                ++ [spec_request default_client
                      (helper_operation (entry_helper p)) (VDict d)])%list.
Proof.
  destruct (entry_delegates p c E st) as [[e ->] | [c' ->]].
  - left. reflexivity.
  - apply helper_requests.
Qed.

(** ** The caller context *)

Lemma spec_request_context (self : t) (operation : string) (args : value) :
  carries_fixed_context (spec_request self operation args).
Proof. reflexivity. Qed.

(** C8: every request that leaves the client, through the generic call path,
    through any helper or through any convenience entry point and whatever
    the arguments of the call, carries the context
    [{"user_id": "ai-tool-calling", "user_role": "user"}]: no argument
    reaches it. *)
Theorem every_request_carries_fixed_context :
  (∀ self operation args E st,
     ∃ req, requests (_call_mcp_tool self operation args E st)
              = (sent st ++ [req])%list
            ∧ carries_fixed_context req)
  ∧ (∀ h self c E st,
       ∃ new, requests (helper_run h self c E st) = (sent st ++ new)%list
              ∧ Forall carries_fixed_context new)
  ∧ (∀ p c E st,
       ∃ new, requests (entry_run p c E st) = (sent st ++ new)%list
              ∧ Forall carries_fixed_context new)
  ∧ (∀ self who role E st,
       requests (status self {| positional := [];
                                keywords := {[ "user_id" := who;
                                               "user_role" := role ]} |} E st)
       = (sent st
            ++ [spec_request self "status"
                  (VDict {[ "user_id" := who; "user_role" := role ]})])%list).
Proof.
  split; [| split; [| split]]; cycle 3.
  { intros self who role E st.
    change (requests
              (_call_mcp_tool self "status"
                 (VDict {[ "user_id" := who; "user_role" := role ]}) E st)
            = (sent st
                 ++ [spec_request self "status"
                       (VDict {[ "user_id" := who;
                                 "user_role" := role ]})])%list).
    rewrite call_mcp_tool_requests, py_or_dict. reflexivity. }
  - intros. eexists. split; [apply call_mcp_tool_requests |].
    apply spec_request_context.
  - intros. destruct (helper_requests h self c E st) as [-> | [d ->]].
    + exists []. split; [by rewrite app_nil_r | constructor].
    + eexists. split; [reflexivity |].
      repeat constructor.
  - intros. destruct (entry_requests p c E st) as [-> | [d ->]].
    + exists []. split; [by rewrite app_nil_r | constructor].
    + eexists. split; [reflexivity |].
      repeat constructor.
Qed.

(** ** The convenience entry points *)

(** A parameter given by keyword: taken when no positional argument is left
    for it, a clash otherwise. *)
Lemma take_keyword (name : string) (dflt : option value) (pos : list value)
    (kw : gmap string value) (v : value) (E : env) (st : state) :
  take name dflt {| positional := pos; keywords := <[name := v]> kw |} E st
  = match pos with
    | [] => (inr (v, {| positional := []; keywords := delete name kw |}), st)
    | _ :: _ => (inl TypeError, st)
    end.
Proof.
  unfold take. cbn [positional keywords].
  rewrite lookup_insert_eq, delete_insert_eq. destruct pos; reflexivity.
Qed.

(** C7: each convenience entry point makes exactly one call of one helper of
    a client built on the default backend, and the [dataset_path] it accepts,
    given by position or by keyword, changes nothing of the run: outcome,
    requests sent and records logged are the same for any two values. *)
Theorem entry_points_ignore_dataset_path :
  (∀ p v1 v2 pos kw E st,
     entry_run p {| positional := v1 :: pos; keywords := kw |} E st
     = entry_run p {| positional := v2 :: pos; keywords := kw |} E st)
  ∧ (∀ p v1 v2 pos kw E st,
       entry_run p {| positional := pos;
                      keywords := <["dataset_path" := v1]> kw |} E st
       = entry_run p {| positional := pos;
                        keywords := <["dataset_path" := v2]> kw |} E st)
  ∧ (∀ v E st,
       git_status_tool {| positional := [v]; keywords := ∅ |} E st
       = status default_client no_args E st)
  ∧ (∀ v message E st,
       git_commit_tool {| positional := [v; message]; keywords := ∅ |} E st
       = commit default_client
           {| positional := [message]; keywords := ∅ |} E st)
  ∧ (∀ v files E st,
       git_add_tool {| positional := [v; files]; keywords := ∅ |} E st
       = add default_client {| positional := [files]; keywords := ∅ |} E st)
  ∧ (∀ v E st,
       git_branches_tool {| positional := [v]; keywords := ∅ |} E st
       = branch default_client no_args E st)
  ∧ (∀ v limit E st,
       git_history_tool {| positional := [v; limit]; keywords := ∅ |} E st
       = log default_client
           {| positional := []; keywords := {[ "limit" := limit ]} |} E st)
  ∧ (∀ v E st,
       git_history_tool {| positional := [v]; keywords := ∅ |} E st
       = log default_client
           {| positional := []; keywords := {[ "limit" := VInt 10 ]} |} E st)
  ∧ (∀ p c E st,
       (∃ e, entry_run p c E st = (inl e, st))
       ∨ (∃ c', entry_run p c E st
                  = helper_run (entry_helper p) default_client c' E st)).
Proof.
  repeat apply conj; try (intros; reflexivity).
  - intros p v1 v2 pos kw E st.
    destruct p; cbn [entry_run];
      unfold git_status_tool, git_commit_tool, git_add_tool,
        git_branches_tool, git_history_tool;
      split_binding; reflexivity.
  - intros p v1 v2 pos kw E st.
    destruct p; cbn [entry_run];
      unfold git_status_tool, git_commit_tool, git_add_tool,
        git_branches_tool, git_history_tool;
      unfold mbind, M_bind; cbn beta;
      rewrite !take_keyword; destruct pos; reflexivity.
  - apply entry_delegates.
Qed.

(** ** Argument shaping *)

Lemma sent_args_spec_request (self : t) (operation : string) (args : value) :
  sent_args (spec_request self operation args) = Some args.
Proof. reflexivity. Qed.

(** A delegated call sends the request of its mapping. *)
Lemma delegated_requests (m : M value) (self : t) (operation : string)
    (d : gmap string value) (E : env) (st : state) :
  m E st = _call_mcp_tool self operation (VDict d) E st →
  requests (m E st)
    = (sent st ++ [spec_request self operation (VDict d)])%list.
Proof.
  intros ->. rewrite call_mcp_tool_requests, py_or_dict. reflexivity.
Qed.

Ltac solve_lookup :=
  unfold dict_update; cbn [positional keywords];
  repeat first
    [ rewrite lookup_union
    | rewrite lookup_insert_eq
    | rewrite lookup_insert_ne by done
    | rewrite lookup_delete_eq
    | rewrite lookup_delete_ne by done
    | rewrite lookup_singleton_eq
    | rewrite lookup_singleton_ne by done
    | rewrite lookup_empty ];
  repeat match goal with
         | H : _ !! _ = _ |- _ => rewrite H
         end;
  try done.

(** C3: [diff(staged=True, page=2, page_size=50)] hands the generic call
    path the operation ["diff"] and the mapping
    [{"staged": True, "page": 2, "page_size": 50}], with these three keys
    and no other, and this mapping is the [args] of the request sent; the
    same holds when the three values are given by position. *)
Theorem diff_builds_exact_args (self : t) (E : env) (st : state) :
  let args : gmap string value :=
    {[ "staged" := VBool true; "page" := VInt 2; "page_size" := VInt 50 ]} in
  let by_keyword := {| positional := []; keywords := args |} in
  let by_position :=
    {| positional := [VBool true; VInt 2; VInt 50]; keywords := ∅ |} in
  diff self by_keyword E st = _call_mcp_tool self "diff" (VDict args) E st
  ∧ diff self by_position E st = _call_mcp_tool self "diff" (VDict args) E st
  ∧ requests (diff self by_keyword E st)
    = (sent st ++ [spec_request self "diff" (VDict args)])%list
  ∧ sent_args (spec_request self "diff" (VDict args)) = Some (VDict args)
  ∧ dom args = ({[ "staged"; "page"; "page_size" ]} : gset string)
  ∧ args !! "staged" = Some (VBool true)
  ∧ args !! "page" = Some (VInt 2)
  ∧ args !! "page_size" = Some (VInt 50).
Proof.
  intros args by_keyword by_position.
  assert (Hkw : diff self by_keyword E st
                = _call_mcp_tool self "diff" (VDict args) E st)
    by reflexivity.
  repeat split; try reflexivity.
  apply (delegated_requests _ _ _ _ _ _ Hkw).
Qed.

(** [push], [pull] and [clone] called with keyword arguments. *)
Lemma push_keyword_run (self : t) (kw : gmap string value) (E : env)
    (st : state) :
  kw !! "self" = None →
  ∃ d, push self {| positional := []; keywords := kw |} E st
         = _call_mcp_tool self "push" (VDict d) E st
       ∧ d !! "branch" = conditional (kw !! "branch")
       ∧ d !! "remote" = Some (default (VStr "origin") (kw !! "remote")).
Proof.
  intros Hself. unfold push, conditional. run_binding. rewrite Hself.
  split_binding; eexists; (split; [reflexivity |]); split; solve_lookup.
Qed.

Lemma pull_keyword_run (self : t) (kw : gmap string value) (E : env)
    (st : state) :
  kw !! "self" = None →
  ∃ d, pull self {| positional := []; keywords := kw |} E st
         = _call_mcp_tool self "pull" (VDict d) E st
       ∧ d !! "branch" = conditional (kw !! "branch")
       ∧ d !! "remote" = Some (default (VStr "origin") (kw !! "remote")).
Proof.
  intros Hself. unfold pull, conditional. run_binding. rewrite Hself.
  split_binding; eexists; (split; [reflexivity |]); split; solve_lookup.
Qed.



(** [push(branch=...)] with the empty string: a branch is given, and the
    mapping sent holds ["remote"] and ["force"] only; no mapping with the
    empty string under ["branch"] goes out. *)
Lemma push_empty_branch_sends_no_branch_key :
  requests (push default_client with_empty_branch (quiet_env refused) fresh)
    = [spec_request default_client "push"
         (VDict {[ "remote" := VStr "origin"; "force" := VBool false ]})]
  ∧ ¬ ∃ d, requests (push default_client with_empty_branch
                       (quiet_env refused) fresh)
             = [spec_request default_client "push" (VDict d)]
           ∧ d !! "branch" = Some (VStr "").
Proof.
  split; [reflexivity |].
  intros (d & Hreq & Hbranch).
  assert (Hargs : Some (VDict {[ "remote" := VStr "origin";
                                 "force" := VBool false ]})
                  = Some (VDict d)).
  { change (hd_error (requests (push default_client with_empty_branch
                                  (quiet_env refused) fresh))
              ≫= sent_args
            = Some (VDict d)).
    rewrite Hreq. reflexivity. }
  injection Hargs as <-. discriminate Hbranch.
Qed.

(** [push] on a call that binds, whatever its shape: what goes under the
    three keys of its parameters. *)
Lemma push_accepted_run (self : t) (c : call) (E : env) (st : state) :
  accepted ["remote"; "branch"; "force"] c →
  ∃ d, push self c E st = _call_mcp_tool self "push" (VDict d) E st
       ∧ d !! "remote" = Some (bound_arg 0 "remote" (VStr "origin") c)
       ∧ d !! "branch" = conditional (Some (bound_arg 1 "branch" VNone c))
       ∧ d !! "force" = Some (bound_arg 2 "force" (VBool false) c).
Proof.
  destruct c as [pos kw]. intros [Hself Hclash].
  cbn [positional keywords] in Hself, Hclash.
  destruct pos as [| r [| b [| f [| ? ?]]]]; cbn [no_clash] in Hclash;
    destruct_and?; try contradiction;
    unfold push, conditional, bound_arg; run_binding; rewrite Hself;
    cbn [lookup list_lookup];
    split_binding; try congruence;
    eexists; (split; [reflexivity |]); repeat split; solve_lookup.
Qed.

(** C4, with the truth test [if branch:] of the code: every call of [push]
    that binds, the branch given by position, by keyword or not at all, is
    delegated to the generic call path under the operation ["push"]; the
    mapping sent has no key ["branch"] when the branch bound is [None] (given
    so, or left to the default), and has the key with the value bound when
    that value is truthy (a non-empty name); [remote] and [force] go under
    their own keys. *)
Theorem push_branch_key (self : t) (c : call) (E : env) (st : state) :
  accepted ["remote"; "branch"; "force"] c →
  ∃ d, push self c E st = _call_mcp_tool self "push" (VDict d) E st
       ∧ requests (push self c E st)
         = (sent st ++ [spec_request self "push" (VDict d)])%list
       ∧ (bound_arg 1 "branch" VNone c = VNone → d !! "branch" = None)
       ∧ (truthy (bound_arg 1 "branch" VNone c) = true →
          d !! "branch" = Some (bound_arg 1 "branch" VNone c))
       ∧ d !! "remote" = Some (bound_arg 0 "remote" (VStr "origin") c)
       ∧ d !! "force" = Some (bound_arg 2 "force" (VBool false) c).
Proof.
  intros Haccepted.
  destruct (push_accepted_run self c E st Haccepted)
    as (d & Hrun & Hremote & Hbranch & Hforce).
  exists d. split; [exact Hrun |]. split; [| split; [| split; [| split]]].
  - apply (delegated_requests _ _ _ _ _ _ Hrun).
  - intros Hnone. rewrite Hbranch, Hnone. reflexivity.
  - intros Htruthy. rewrite Hbranch. cbn [conditional].
    rewrite Htruthy. reflexivity.
  - exact Hremote.
  - exact Hforce.
Qed.

Lemma push_origin_main_accepted :
  accepted ["remote"; "branch"; "force"] push_origin_main.
Proof. repeat split. Qed.

Lemma push_branch_key_witness :
  ∃ d, requests (push default_client push_origin_main
                   (quiet_env refused) fresh)
         = [spec_request default_client "push" (VDict d)]
       ∧ d !! "branch" = Some (VStr "main")
       ∧ d !! "remote" = Some (VStr "origin")
       ∧ d !! "force" = Some (VBool false).
Proof.
  destruct (push_branch_key default_client push_origin_main
              (quiet_env refused) fresh push_origin_main_accepted)
    as (d & _ & Hreq & _ & Hbranch & Hremote & Hforce).
  exists d. split; [exact Hreq |].
  split; [exact (Hbranch eq_refl) |]. split; [exact Hremote | exact Hforce].
Defined.

(** C5: a call that binds (no keyword named [self]) and gives no value for
    the parameter gets the default of
    the helper under the parameter's key in the mapping sent: ["origin"] for
    [remote] in [push], [pull] and [fetch], ["mixed"] for [mode] in [reset],
    ["push"] for [action] in [stash] and ["list"] for [action] in
    [remote]. *)
Theorem helper_defaults_reach_the_bridge (self : t)
    (kw : gmap string value) (E : env) (st : state) :
  kw !! "self" = None →
  let c := {| positional := []; keywords := kw |} in
  (kw !! "remote" = None →
   (∃ d, requests (push self c E st)
           = (sent st ++ [spec_request self "push" (VDict d)])%list
         ∧ d !! "remote" = Some (VStr "origin"))
   ∧ (∃ d, requests (pull self c E st)
             = (sent st ++ [spec_request self "pull" (VDict d)])%list
           ∧ d !! "remote" = Some (VStr "origin"))
   ∧ (∃ d, requests (fetch self c E st)
             = (sent st ++ [spec_request self "fetch" (VDict d)])%list
           ∧ d !! "remote" = Some (VStr "origin")))
  ∧ (kw !! "mode" = None →
     ∃ d, requests (reset self c E st)
            = (sent st ++ [spec_request self "reset" (VDict d)])%list
          ∧ d !! "mode" = Some (VStr "mixed"))
  ∧ (kw !! "action" = None →
     (∃ d, requests (stash self c E st)
             = (sent st ++ [spec_request self "stash" (VDict d)])%list
           ∧ d !! "action" = Some (VStr "push"))
     ∧ (∃ d, requests (remote self c E st)
               = (sent st ++ [spec_request self "remote" (VDict d)])%list
             ∧ d !! "action" = Some (VStr "list"))).
Proof.
  intros Hself c. subst c. split; [| split].
  - intros Hkw. split; [| split].
    + destruct (push_keyword_run self kw E st Hself) as (d & Hrun & _ & Hremote).
      exists d. split; [apply (delegated_requests _ _ _ _ _ _ Hrun) |].
      rewrite Hremote, Hkw. reflexivity.
    + destruct (pull_keyword_run self kw E st Hself) as (d & Hrun & _ & Hremote).
      exists d. split; [apply (delegated_requests _ _ _ _ _ _ Hrun) |].
      rewrite Hremote, Hkw. reflexivity.
    + eexists. split.
      * apply delegated_requests. unfold fetch. run_binding.
        rewrite Hself. run_binding. rewrite Hkw. reflexivity.
      * solve_lookup.
  - intros Hkw. eexists. split.
    + apply delegated_requests. unfold reset. run_binding.
      rewrite Hself. run_binding. rewrite Hkw. reflexivity.
    + solve_lookup.
  - intros Hkw. split.
    + eexists. split.
      * apply delegated_requests. unfold stash. run_binding.
        rewrite Hself. run_binding. rewrite Hkw. reflexivity.
      * solve_lookup.
    + eexists. split.
      * apply delegated_requests. unfold remote. run_binding.
        rewrite Hself. run_binding. rewrite Hkw. reflexivity.
      * solve_lookup.
Qed.

Lemma helper_defaults_reach_the_bridge_witness :
  (∃ d, requests (push default_client no_args (quiet_env refused) fresh)
          = [spec_request default_client "push" (VDict d)]
        ∧ d !! "remote" = Some (VStr "origin"))
  ∧ (∃ d, requests (pull default_client no_args (quiet_env refused) fresh)
            = [spec_request default_client "pull" (VDict d)]
          ∧ d !! "remote" = Some (VStr "origin"))
  ∧ (∃ d, requests (fetch default_client no_args (quiet_env refused) fresh)
            = [spec_request default_client "fetch" (VDict d)]
          ∧ d !! "remote" = Some (VStr "origin"))
  ∧ (∃ d, requests (reset default_client no_args (quiet_env refused) fresh)
            = [spec_request default_client "reset" (VDict d)]
          ∧ d !! "mode" = Some (VStr "mixed"))
  ∧ (∃ d, requests (stash default_client no_args (quiet_env refused) fresh)
            = [spec_request default_client "stash" (VDict d)]
          ∧ d !! "action" = Some (VStr "push"))
  ∧ (∃ d, requests (remote default_client no_args (quiet_env refused) fresh)
            = [spec_request default_client "remote" (VDict d)]
          ∧ d !! "action" = Some (VStr "list")).
Proof.
  destruct (helper_defaults_reach_the_bridge default_client ∅
              (quiet_env refused) fresh (lookup_empty _))
    as (Hremote & Hmode & Haction).
  destruct (Hremote eq_refl) as (Hpush & Hpull & Hfetch).
  destruct (Haction eq_refl) as (Hstash & Hlist).
  exact (conj Hpush (conj Hpull (conj Hfetch
           (conj (Hmode eq_refl) (conj Hstash Hlist))))).
Defined.

(** Whatever the shape of the call, a request of [push], [pull] or [clone]
    never carries a falsy value under its conditional key. *)
Lemma conditional_keys_never_falsy (self : t) (c : call) (E : env)
    (st : state) :
  (requests (push self c E st) = sent st
   ∨ ∃ d, requests (push self c E st)
            = (sent st ++ [spec_request self "push" (VDict d)])%list
          ∧ ∀ b, d !! "branch" = Some b → truthy b = true)
  ∧ (requests (pull self c E st) = sent st
     ∨ ∃ d, requests (pull self c E st)
              = (sent st ++ [spec_request self "pull" (VDict d)])%list
            ∧ ∀ b, d !! "branch" = Some b → truthy b = true)
  ∧ (requests (clone self c E st) = sent st
     ∨ ∃ d, requests (clone self c E st)
              = (sent st ++ [spec_request self "clone" (VDict d)])%list
            ∧ ∀ b, d !! "directory" = Some b → truthy b = true).
Proof.
  destruct c as [pos kw].
  split; [| split]; unfold push, pull, clone; split_binding;
    first
      [ left; reflexivity
      | right; eexists;
        (split; [apply delegated_requests; reflexivity |]);
        intros b; solve_lookup; intros ?; simplify_eq; done ].
Qed.



(** * Further properties of the generic call path *)

(** X1: when the channel itself fails (connection refused, timeout), the
    exception of the channel leaves the call unchanged, not wrapped; the
    request was attempted once and the failure is logged once.  What is
    raised outside the [Exception] hierarchy, a cancelled await for one,
    leaves the call unchanged as well, and unlogged. *)
Theorem transport_exception_propagates (self : t) (operation : string)
    (args : value) (E : env) (st : state) (e : exn) :
  bridge E (sent st) (spec_request self operation (py_or args (VDict ∅)))
    = inl e →
  _call_mcp_tool self operation args E st
    = (inl e,
       {| sent := sent st
                    ++ [spec_request self operation (py_or args (VDict ∅))];
          logged :=
            if is_exception e then
              logged st
                ++ [("Failed to call MCP git_tool via bridge: ", e)]
            else logged st |}).
Proof.
  intros Hanswer. rewrite call_mcp_tool_run, Hanswer. cbn [verdict].
  destruct (is_exception e); reflexivity.
Qed.

Lemma transport_exception_propagates_witness :
  _call_mcp_tool default_client "fetch" VNone (quiet_env refused) fresh
  = (inl (LibraryError "ConnectError" "All connection attempts failed"),
     {| sent := [spec_request default_client "fetch" (VDict ∅)];
        logged :=
          [("Failed to call MCP git_tool via bridge: ",
            LibraryError "ConnectError"
              "All connection attempts failed")] |}).
Proof.
  exact (transport_exception_propagates default_client "fetch" VNone
           (quiet_env refused) fresh _ eq_refl).
Defined.

(** X2: a 200 answer whose body does not decode, or decodes to something
    other than a mapping, makes the call raise: the decoder's exception as it
    is in the first case, an [AttributeError] naming the type of the decoded
    value in the second; neither is turned into the generic [Exception]. *)
Theorem malformed_body_raises (self : t) (operation : string) (args : value)
    (E : env) (st : state) (resp : response) :
  bridge E (sent st) (spec_request self operation (py_or args (VDict ∅)))
    = inr resp →
  status_code resp = 200 →
  (∀ e, json resp = inl e →
        outcome (_call_mcp_tool self operation args E st) = inl e)
  ∧ (∀ v, json resp = inr v → (∀ d, v ≠ VDict d) →
          outcome (_call_mcp_tool self operation args E st)
          = inl (AttributeError
                   ("'" ++ type_name v ++ "' object has no attribute 'get'"))).
Proof.
  intros Hanswer Hstatus. split.
  - intros e Hjson. rewrite call_mcp_tool_run, Hanswer. unfold verdict.
    rewrite Hstatus, Hjson. reflexivity.
  - intros v Hjson Hv. rewrite call_mcp_tool_run, Hanswer. unfold verdict.
    rewrite Hstatus, Hjson.
    destruct v; try reflexivity. destruct (Hv _ eq_refl).
Qed.

Lemma malformed_body_raises_witness :
  outcome (_call_mcp_tool default_client "status" VNone
             (quiet_env (inr list_body)) fresh)
  = inl (AttributeError "'list' object has no attribute 'get'").
Proof.
  refine (proj2 (malformed_body_raises default_client "status" VNone
                   (quiet_env (inr list_body)) fresh list_body
                   eq_refl eq_refl) (VList []) eq_refl _).
  intros d. discriminate.
Defined.

(** X3: a call logs exactly when it raises an exception of the
    [Exception] hierarchy: one record, holding the exception raised, after
    the records already there.  A call that returns leaves the log as it
    was, and so does a call that raises outside that hierarchy
    ([CancelledError] on a cancelled await, [KeyboardInterrupt]): the
    handler [except Exception] does not see it.  In every case one request
    was added. *)
Theorem call_logs_iff_raises (self : t) (operation : string) (args : value)
    (E : env) (st : state) :
  match _call_mcp_tool self operation args E st with
  | (inl e, st') =>
      logged st'
      = (if is_exception e then
           logged st ++ [("Failed to call MCP git_tool via bridge: ", e)]
         else logged st)%list
      ∧ length (sent st') = S (length (sent st))
  | (inr _, st') =>
      logged st' = logged st ∧ length (sent st') = S (length (sent st))
  end.
Proof.
  rewrite call_mcp_tool_run.
  destruct (verdict E _) as [e | v]; [destruct (is_exception e) |];
    cbn [after_failure after_post sent logged];
    rewrite length_app, Nat.add_comm; split; reflexivity.
Qed.

(** A cancelled await: the call raises the cancellation, the request was
    attempted, and the log is as it was. *)
Lemma cancelled_call_is_not_logged :
  _call_mcp_tool default_client "fetch" VNone (quiet_env cancelled) fresh
  = (inl (BaseException "CancelledError" EmptyString),
     {| sent := [spec_request default_client "fetch" (VDict ∅)];
        logged := [] |}).
Proof. reflexivity. Qed.

(** X4: in an application failure the default text ["Unknown error"] stands
    in for a missing [error] key only: an [error] that is present goes into
    the message through [str], so a JSON [null] gives ["None"] and an empty
    string gives an empty tail. *)
Theorem unknown_error_only_when_key_missing (self : t) (operation : string)
    (args : value) (E : env) (st : state) (resp : response)
    (body : gmap string value) :
  bridge E (sent st) (spec_request self operation (py_or args (VDict ∅)))
    = inr resp →
  status_code resp = 200 →
  json resp = inr (VDict body) →
  truthy (default (VBool false) (body !! "success")) = false →
  (body !! "error" = None →
   outcome (_call_mcp_tool self operation args E st)
   = inl (Exception "MCP tool call failed: Unknown error"))
  ∧ (body !! "error" = Some VNone →
     outcome (_call_mcp_tool self operation args E st)
     = inl (Exception "MCP tool call failed: None"))
  ∧ (body !! "error" = Some (VStr "") →
     outcome (_call_mcp_tool self operation args E st)
     = inl (Exception "MCP tool call failed: ")).
Proof.
  intros Hanswer Hstatus Hjson Hsuccess.
  assert (Hout : outcome (_call_mcp_tool self operation args E st)
                 = inl (Exception
                          ("MCP tool call failed: "
                             ++ str_in E (default (VStr "Unknown error")
                                            (body !! "error"))))).
  { rewrite call_mcp_tool_run, Hanswer. unfold verdict.
    rewrite Hstatus, Hjson. cbn [Z.eqb Pos.eqb]. rewrite Hsuccess.
    reflexivity. }
  repeat split; intros Herror; rewrite Hout, Herror; reflexivity.
Qed.

Lemma unknown_error_only_when_key_missing_witness :
  outcome (_call_mcp_tool default_client "status" VNone
             (quiet_env (inr empty_body)) fresh)
  = inl (Exception "MCP tool call failed: Unknown error").
Proof.
  exact (proj1 (unknown_error_only_when_key_missing default_client "status"
                  VNone (quiet_env (inr empty_body)) fresh empty_body ∅
                  eq_refl eq_refl eq_refl eq_refl) eq_refl).
Defined.

(** X5: the generic call path replaces every falsy argument, not only
    [None], by the empty mapping, and sends every truthy argument as it is,
    a mapping or not. *)
Theorem falsy_args_sent_as_empty_mapping (self : t) (operation : string)
    (args : value) (E : env) (st : state) :
  ∃ req, requests (_call_mcp_tool self operation args E st)
           = (sent st ++ [req])%list
         ∧ sent_args req
           = Some (if truthy args then args else VDict ∅).
Proof.
  eexists. split; [apply call_mcp_tool_requests |].
  rewrite sent_args_spec_request. reflexivity.
Qed.

(** * Further properties of the helpers *)

Ltac unfold_helpers :=
  cbn [helper_run helper_operation helper_params helper_conditional];
  unfold status, branch, log, diff, add, commit, push, pull, checkout,
    merge, rebase, reset, stash, tag, remote, fetch, clone.

(** Case analysis on a key: one of the parameter names the goal mentions,
    or none of them. *)
Ltac case_on k n :=
  try (is_var k;
       lazymatch goal with
       | |- context [n] => destruct (decide (k = n)) as [-> | ?]
       end).

Ltac case_key k :=
  case_on k "limit"; case_on k "staged"; case_on k "page";
  case_on k "page_size"; case_on k "files"; case_on k "message";
  case_on k "remote"; case_on k "branch"; case_on k "force";
  case_on k "mode"; case_on k "action"; case_on k "name";
  case_on k "url"; case_on k "directory".

(** Closes a branch of a binding analysis: the call was rejected, or it
    was delegated and the lookup in the mapping follows. *)
Ltac close_binding tac :=
  first
    [ left; eexists; reflexivity
    | right; eexists;
      (split; [apply delegated_requests; reflexivity |]); tac ].

(** X6: every helper either rejects its call before anything happens, the
    state untouched, or makes one call of the generic path under its own
    name: one request, a POST to the bridge path of the client's backend
    with the client's timeout and that operation. *)
Theorem helper_sends_own_operation (h : helper) (self : t) (c : call)
    (E : env) (st : state) :
  (∃ e, helper_run h self c E st = (inl e, st))
  ∨ ∃ d req,
      helper_run h self c E st
      = _call_mcp_tool self (helper_operation h) (VDict d) E st
      ∧ requests (helper_run h self c E st) = (sent st ++ [req])%list
      ∧ req_method req = POST
      ∧ req_url req = backend_url self ++ "/api/mcp-bridge/tools/call"
      ∧ req_timeout req = timeout self
      ∧ item (req_json req) "tool" = Some (VStr "git_tool")
      ∧ sent_args req = Some (VDict d)
      ∧ (a ← item (req_json req) "arguments"; item a "operation")
        = Some (VStr (helper_operation h)).
Proof.
  destruct (helper_delegates h self c E st) as [Hrejected | [d Hrun]];
    [left; exact Hrejected | right].
  exists d, (spec_request self (helper_operation h) (VDict d)).
  split; [exact Hrun |].
  split; [apply (delegated_requests _ _ _ _ _ _ Hrun) |].
  repeat split.
Qed.

(** X7: a keyword argument reaches the mapping sent under its own name and
    unchanged, be it a named parameter of the helper or an extra keyword;
    only the conditional parameters ([branch] of [push] and [pull],
    [directory] of [clone]) are excepted.  The name [self] belongs to the
    receiver of the call and is no keyword of it. *)
Theorem keyword_arguments_reach_the_mapping (h : helper) (self : t)
    (c : call) (E : env) (st : state) (k : string) (v : value) :
  k ≠ "self" →
  k ∉ helper_conditional h →
  keywords c !! k = Some v →
  (∃ e, helper_run h self c E st = (inl e, st))
  ∨ ∃ d, requests (helper_run h self c E st)
           = (sent st
                ++ [spec_request self (helper_operation h) (VDict d)])%list
         ∧ d !! k = Some v.
Proof.
  destruct c as [pos kw]. cbn [keywords].
  intros _ Hcond Hkw.
  destruct h; unfold_helpers; cbn [helper_conditional] in Hcond;
    rewrite ?not_elem_of_cons in Hcond; destruct_and?;
    case_key k; try congruence;
    split_binding; try congruence;
    close_binding ltac:(solve_lookup; congruence).
Qed.

Lemma keyword_arguments_reach_the_mapping_witness :
  ∃ d, requests (status default_client
                   {| positional := [];
                      keywords := {[ "short" := VBool true ]} |}
                   (quiet_env refused) fresh)
         = [spec_request default_client "status" (VDict d)]
       ∧ d !! "short" = Some (VBool true).
Proof.
  assert (Hcond : "short" ∉ helper_conditional Status)
    by apply not_elem_of_nil.
  assert (Hkw : keywords {| positional := [];
                            keywords := {[ "short" := VBool true ]} |}
                  !! "short" = Some (VBool true)) by reflexivity.
  assert (Hname : "short" ≠ "self") by discriminate.
  destruct (keyword_arguments_reach_the_mapping Status default_client _
              (quiet_env refused) fresh "short" (VBool true) Hname Hcond Hkw)
    as [[e Hrejected] | Hsent].
  - discriminate Hrejected.
  - exact Hsent.
Defined.

(** X8: the mapping a helper sends always holds every named parameter of the
    helper that is not conditional, however the call gave or omitted it. *)
Theorem unconditional_parameters_always_sent (h : helper) (self : t)
    (c : call) (E : env) (st : state) (k : string) :
  k ∈ (helper_params h).*1 →
  k ∉ helper_conditional h →
  (∃ e, helper_run h self c E st = (inl e, st))
  ∨ ∃ d, requests (helper_run h self c E st)
           = (sent st
                ++ [spec_request self (helper_operation h) (VDict d)])%list
         ∧ is_Some (d !! k).
Proof.
  destruct c as [pos kw]. intros Hin Hcond.
  destruct h; unfold_helpers; cbn [helper_params helper_conditional fmap
                                     list_fmap fst] in Hin, Hcond;
    rewrite ?not_elem_of_cons in Hcond; destruct_and?;
    repeat (apply elem_of_cons in Hin as [-> | Hin]);
    try (by apply elem_of_nil in Hin); try congruence;
    split_binding; close_binding ltac:(solve_lookup; eauto).
Qed.

Lemma unconditional_parameters_always_sent_witness :
  (∃ e, push default_client no_args (quiet_env refused) fresh
        = (inl e, fresh))
  ∨ ∃ d, requests (push default_client no_args (quiet_env refused) fresh)
           = [spec_request default_client "push" (VDict d)]
         ∧ is_Some (d !! "force").
Proof.
  apply (unconditional_parameters_always_sent Push default_client no_args
           (quiet_env refused) fresh "force").
  - cbn. repeat constructor.
  - cbn. rewrite not_elem_of_cons. split; [discriminate | apply not_elem_of_nil].
Defined.

(** X9: a call that binds (no keyword named [self], every required
    parameter given) and does not give a parameter that has a default (no
    positional argument, no keyword of its name) sends a request whose
    mapping holds that default: [limit=10] for [log], [staged=False],
    [page=1] and [page_size=1000] for [diff], [force=False] for [push],
    beside the defaults of [remote], [mode] and [action]; a conditional
    parameter, whose default is [None], leaves no key. *)
Theorem omitted_parameters_take_defaults (h : helper) (self : t)
    (kw : gmap string value) (E : env) (st : state) (k : string)
    (dflt : value) :
  (k, Some dflt) ∈ helper_params h →
  kw !! k = None →
  kw !! "self" = None →
  (∀ r, (r, None) ∈ helper_params h → is_Some (kw !! r)) →
  ∃ d, requests (helper_run h self
                   {| positional := []; keywords := kw |} E st)
         = (sent st
              ++ [spec_request self (helper_operation h) (VDict d)])%list
       ∧ d !! k = if bool_decide (k ∈ helper_conditional h)
                  then None else Some dflt.
Proof.
  intros Hin Hkw Hself Hrequired.
  destruct h; unfold_helpers; cbn [helper_params] in Hin, Hrequired;
    repeat (apply elem_of_cons in Hin as [Hin | Hin]);
    try (by apply elem_of_nil in Hin); simplify_eq;
    try (destruct (Hrequired "url") as [url Hurl];
         [solve [repeat constructor] |]);
    clear Hrequired;
    split_binding; try congruence;
    eexists; (split; [apply delegated_requests; reflexivity |]);
    solve_lookup.
Qed.

Lemma omitted_parameters_take_defaults_witness :
  ∃ d, requests (diff default_client no_args (quiet_env refused) fresh)
         = [spec_request default_client "diff" (VDict d)]
       ∧ d !! "page_size" = Some (VInt 1000).
Proof.
  apply (omitted_parameters_take_defaults Diff default_client ∅
           (quiet_env refused) fresh "page_size" (VInt 1000)).
  - cbn. repeat constructor.
  - reflexivity.
  - reflexivity.
  - intros r Hr. cbn in Hr.
    repeat (apply elem_of_cons in Hr as [Hr | Hr]; [discriminate Hr |]).
    by apply elem_of_nil in Hr.
Defined.

(** X10: a helper with a required parameter ([files], [message], [branch]
    of [checkout], [merge] and [rebase], [name], [url]) called without it
    raises [TypeError] before anything is sent or logged. *)
Theorem missing_required_parameter_rejected (h : helper) (self : t)
    (kw : gmap string value) (E : env) (st : state) (k : string) :
  (k, None) ∈ helper_params h →
  kw !! k = None →
  helper_run h self {| positional := []; keywords := kw |} E st
  = (inl TypeError, st).
Proof.
  intros Hin Hkw.
  destruct h; unfold_helpers; cbn [helper_params] in Hin;
    repeat (apply elem_of_cons in Hin as [Hin | Hin]);
    try (by apply elem_of_nil in Hin); simplify_eq;
    split_binding; congruence.
Qed.

Lemma missing_required_parameter_rejected_witness :
  commit default_client no_args (quiet_env refused) fresh
  = (inl TypeError, fresh).
Proof.
  apply (missing_required_parameter_rejected Commit default_client ∅
           (quiet_env refused) fresh "message").
  - cbn. repeat constructor.
  - reflexivity.
Defined.

(** A parameter given by position, with no keyword of its name. *)
Lemma take_positional (name : string) (dflt : option value) (v : value)
    (pos : list value) (kw : gmap string value) (E : env) (st : state) :
  kw !! name = None →
  take name dflt {| positional := v :: pos; keywords := kw |} E st
  = (inr (v, {| positional := pos; keywords := kw |}), st).
Proof. intros Hkw. unfold take. cbn [positional keywords]. by rewrite Hkw. Qed.

(** X11: the first named parameter of a helper may be given by position or
    by keyword: the two calls run alike, outcome, requests and log. *)
Theorem first_parameter_by_position_or_keyword (h : helper) (self : t)
    (kw : gmap string value) (v : value) (E : env) (st : state)
    (k : string) (dflt : option value) (rest : list (string * option value)) :
  helper_params h = (k, dflt) :: rest →
  kw !! k = None →
  helper_run h self {| positional := [v]; keywords := kw |} E st
  = helper_run h self {| positional := []; keywords := <[k := v]> kw |} E st.
Proof.
  intros Hparams Hkw.
  destruct h; cbn [helper_params] in Hparams; simplify_eq;
    unfold_helpers; unfold mbind, M_bind, bind_self, mret, M_ret;
    cbn [positional keywords]; rewrite lookup_insert_ne by done;
    (destruct (kw !! "self"); [reflexivity |]); cbn beta iota;
    rewrite take_keyword, take_positional by done;
    rewrite delete_id by done; reflexivity.
Qed.

Lemma first_parameter_by_position_or_keyword_witness :
  commit default_client
    {| positional := [VStr "fix typo"]; keywords := ∅ |}
    (quiet_env refused) fresh
  = commit default_client
      {| positional := []; keywords := {[ "message" := VStr "fix typo" ]} |}
      (quiet_env refused) fresh.
Proof.
  exact (first_parameter_by_position_or_keyword Commit default_client ∅
           (VStr "fix typo") (quiet_env refused) fresh "message" None []
           eq_refl eq_refl).
Defined.

(** X12: a helper called with more positional arguments than it has named
    parameters raises [TypeError] before anything is sent or logged; so do
    [status] and [branch] on any positional argument. *)
Theorem too_many_positional_rejected (h : helper) (self : t) (c : call)
    (E : env) (st : state) :
  (length (helper_params h) < length (positional c))%nat →
  helper_run h self c E st = (inl TypeError, st).
Proof.
  destruct c as [pos kw]. cbn [positional]. intros Hlen.
  destruct h; unfold_helpers; cbn [helper_params length] in Hlen;
    destruct pos as [| ? [| ? [| ? [| ? ?]]]]; cbn [length] in Hlen;
    try lia; split_binding; reflexivity.
Qed.

Lemma too_many_positional_rejected_witness :
  status default_client {| positional := [VStr "."]; keywords := ∅ |}
    (quiet_env refused) fresh
  = (inl TypeError, fresh).
Proof.
  apply (too_many_positional_rejected Status default_client
           {| positional := [VStr "."]; keywords := ∅ |}).
  cbn. lia.
Defined.

(** * Further properties of the convenience entry points *)

(** X13: whatever its arguments, an entry point sends nothing or one
    request, and that request goes to the default backend,
    [http://localhost:8000/api/mcp-bridge/tools/call], with the timeout of
    30 seconds and the operation of its helper: no argument redirects it. *)
Theorem entry_points_target_default_backend (p : entry_point) (c : call)
    (E : env) (st : state) :
  (∃ e, entry_run p c E st = (inl e, st))
  ∨ ∃ d,
      requests (entry_run p c E st)
      = (sent st
           ++ [{| req_method := POST;
                  req_url := "http://localhost:8000/api/mcp-bridge/tools/call";
                  req_json :=
                    VDict {[ "tool" := VStr "git_tool";
                             "arguments" :=
                               VDict {[ "operation" :=
                                          VStr (helper_operation
                                                  (entry_helper p));
                                        "args" := VDict d ]};
                             "context" := fixed_context ]};
                  req_timeout := 30 |}])%list.
Proof.
  destruct (entry_delegates p c E st) as [Hrejected | [c' Hrun]];
    [left; exact Hrejected |].
  rewrite Hrun.
  destruct (helper_delegates (entry_helper p) default_client c' E st)
    as [Hrejected | [d Hcall]]; [left; exact Hrejected | right].
  exists d. apply (delegated_requests _ _ _ _ _ _ Hcall).
Qed.

(** X14: [dataset_path], though ignored, is required: an entry point called
    without it raises [TypeError] and sends nothing. *)
Theorem dataset_path_ignored_but_required (p : entry_point)
    (kw : gmap string value) (E : env) (st : state) :
  kw !! "dataset_path" = None →
  entry_run p {| positional := []; keywords := kw |} E st
  = (inl TypeError, st).
Proof.
  intros Hkw.
  destruct p; cbn [entry_run];
    unfold git_status_tool, git_commit_tool, git_add_tool,
      git_branches_tool, git_history_tool;
    run_binding; rewrite Hkw; reflexivity.
Qed.

Lemma dataset_path_ignored_but_required_witness :
  git_status_tool no_args (quiet_env refused) fresh = (inl TypeError, fresh).
Proof.
  exact (dataset_path_ignored_but_required GitStatusTool ∅
           (quiet_env refused) fresh eq_refl).
Defined.

(** A map of size zero holds no key. *)
Lemma size_zero_lookup (m : gmap string value) (k : string) :
  Nat.eqb (size m) 0 = true → m !! k = None.
Proof.
  intros Hsize. apply Nat.eqb_eq, map_size_empty_inv in Hsize.
  rewrite Hsize. apply lookup_empty.
Qed.

(** X15: unlike the helpers, the entry points take no extra keyword: a call
    with a keyword that is not one of their parameters raises [TypeError]
    and sends nothing. *)
Theorem entry_points_reject_extra_keywords (p : entry_point) (c : call)
    (E : env) (st : state) (k : string) (v : value) :
  k ∉ entry_params p →
  keywords c !! k = Some v →
  entry_run p c E st = (inl TypeError, st).
Proof.
  destruct c as [pos kw]. cbn [keywords]. intros Hparams Hkw.
  destruct p; cbn [entry_run entry_params] in *;
    rewrite ?not_elem_of_cons in Hparams; destruct_and?;
    unfold git_status_tool, git_commit_tool, git_add_tool,
      git_branches_tool, git_history_tool;
    split_binding; try reflexivity;
    match goal with
    | H : Nat.eqb (size ?m) 0 = true |- _ =>
        apply (size_zero_lookup m k) in H;
        rewrite ?lookup_delete_ne in H by done; congruence
    end.
Qed.

Lemma entry_points_reject_extra_keywords_witness :
  git_status_tool
    {| positional := [VStr "/data"];
       keywords := {[ "verbose" := VBool true ]} |}
    (quiet_env refused) fresh
  = (inl TypeError, fresh).
Proof.
  apply (entry_points_reject_extra_keywords GitStatusTool
           {| positional := [VStr "/data"];
              keywords := {[ "verbose" := VBool true ]} |}
           (quiet_env refused) fresh "verbose" (VBool true)).
  - cbn. rewrite not_elem_of_cons. split; [discriminate | apply not_elem_of_nil].
  - reflexivity.
Defined.

(** * The constructor and the backend URL *)

Lemma append_cons (a : ascii) (s t : string) :
  String a s ++ t = String a (s ++ t).
Proof. reflexivity. Qed.

Lemma append_nil_r (s : string) : s ++ "" = s.
Proof.
  induction s as [| a s IH]; [reflexivity |]. by rewrite append_cons, IH.
Qed.

Lemma append_assoc (s1 s2 s3 : string) : (s1 ++ s2) ++ s3 = s1 ++ (s2 ++ s3).
Proof.
  induction s1 as [| a s1 IH]; [reflexivity |].
  by rewrite !append_cons, IH.
Qed.

Lemma rev_app_spec (s acc : string) :
  String.rev_app s acc = String.rev s ++ acc.
Proof.
  unfold String.rev. revert acc.
  induction s as [| a s IH]; intros acc; [reflexivity |].
  cbn [String.rev_app].
  rewrite IH, (IH (String a "")), append_assoc. reflexivity.
Qed.

Lemma rev_cons (a : ascii) (s : string) :
  String.rev (String a s) = String.rev s ++ String a "".
Proof. unfold String.rev at 1. cbn [String.rev_app]. apply rev_app_spec. Qed.

Lemma rev_append (s1 s2 : string) :
  String.rev (s1 ++ s2) = String.rev s2 ++ String.rev s1.
Proof.
  induction s1 as [| a s1 IH].
  - change (String.rev "") with "". by rewrite append_nil_r.
  - rewrite append_cons, !rev_cons, IH, append_assoc. reflexivity.
Qed.

Lemma rev_involutive (s : string) : String.rev (String.rev s) = s.
Proof.
  induction s as [| a s IH]; [reflexivity |].
  rewrite rev_cons, rev_append, IH. reflexivity.
Qed.

Lemma slashes_snoc (n : nat) : slashes n ++ "/" = slashes (S n).
Proof.
  induction n as [| n IH]; [reflexivity |].
  cbn [slashes] in *. by rewrite append_cons, IH.
Qed.

Lemma rev_slashes (n : nat) : String.rev (slashes n) = slashes n.
Proof.
  induction n as [| n IH]; [reflexivity |].
  cbn [slashes]. rewrite rev_cons, IH. apply slashes_snoc.
Qed.

Lemma lstrip_slash_cons (a : ascii) (s : string) :
  lstrip_slash (String a s)
  = if decide (a = "/"%char) then lstrip_slash s else String a s.
Proof.
  destruct (decide (a = "/"%char)) as [-> | Hne]; [reflexivity |].
  destruct a as [[] [] [] [] [] [] [] []]; try reflexivity. by destruct Hne.
Qed.

Lemma lstrip_slash_split (s : string) :
  ∃ n, s = slashes n ++ lstrip_slash s.
Proof.
  induction s as [| a s [n IH]]; [by exists 0%nat |].
  rewrite lstrip_slash_cons.
  destruct (decide (a = "/"%char)) as [-> | Hne].
  - exists (S n). cbn [slashes]. by rewrite append_cons, <- IH.
  - by exists 0%nat.
Qed.

Lemma lstrip_slash_head (s t : string) : lstrip_slash s ≠ String "/"%char t.
Proof.
  induction s as [| a s IH]; [discriminate |].
  rewrite lstrip_slash_cons.
  destruct (decide (a = "/"%char)) as [-> | Hne]; [exact IH | congruence].
Qed.

Lemma rstrip_slash_spec (s : string) :
  (∃ n, s = rstrip_slash s ++ slashes n)
  ∧ (∀ t, rstrip_slash s ≠ t ++ "/").
Proof.
  unfold rstrip_slash. split.
  - destruct (lstrip_slash_split (String.rev s)) as [n Hn].
    exists n. rewrite <- (rev_involutive s) at 1.
    rewrite Hn at 1. rewrite rev_append, rev_slashes. reflexivity.
  - intros t Heq. apply (f_equal String.rev) in Heq.
    rewrite rev_involutive, rev_append in Heq.
    by apply lstrip_slash_head in Heq.
Qed.

Lemma rstrip_slash_unique (s u : string) (n : nat) :
  s = u ++ slashes n → (∀ t, u ≠ t ++ "/") → rstrip_slash s = u.
Proof.
  intros -> Hu. unfold rstrip_slash.
  rewrite rev_append, rev_slashes.
  assert (Hstrip : ∀ x, lstrip_slash (slashes n ++ x) = lstrip_slash x).
  { intros x. induction n as [| n IH]; [reflexivity |].
    cbn [slashes]. rewrite append_cons. exact IH. }
  rewrite Hstrip.
  assert (Hkeep : lstrip_slash (String.rev u) = String.rev u).
  { destruct (String.rev u) as [| a r] eqn:Hr; [reflexivity |].
    rewrite lstrip_slash_cons.
    destruct (decide (a = "/"%char)) as [-> | Hne]; [| reflexivity].
    destruct (Hu (String.rev r)).
    rewrite <- (rev_involutive u), Hr, rev_cons. reflexivity. }
  rewrite Hkeep. apply rev_involutive.
Qed.

(** The constructor on a string, given by position or by keyword. *)
Lemma init_positional (s : string) (E : env) (st : state) :
  __init__ {| positional := [VStr s]; keywords := ∅ |} E st
  = (inr {| backend_url := rstrip_slash s; timeout := 30 |}, st).
Proof. reflexivity. Qed.

Lemma init_keyword (s : string) (E : env) (st : state) :
  __init__ {| positional := [];
              keywords := {[ "backend_url" := VStr s ]} |} E st
  = (inr {| backend_url := rstrip_slash s; timeout := 30 |}, st).
Proof. reflexivity. Qed.

(** X16: the constructor keeps the backend URL without its trailing
    slashes, all of them and nothing else: the URL given is the stored one
    followed by slashes only, and the stored one ends with no slash; so a URL
    and the same URL with slashes appended give the same client, by position
    or by keyword. *)
Theorem constructor_strips_trailing_slashes (E : env) (st : state) :
  (∀ s, ∃ u n,
     __init__ {| positional := [VStr s]; keywords := ∅ |} E st
     = (inr {| backend_url := u; timeout := 30 |}, st)
     ∧ s = u ++ slashes n
     ∧ ∀ t, u ≠ t ++ "/")
  ∧ (∀ u n,
       (∀ t, u ≠ t ++ "/") →
       __init__ {| positional := [VStr (u ++ slashes n)]; keywords := ∅ |}
         E st
       = (inr {| backend_url := u; timeout := 30 |}, st)
       ∧ __init__ {| positional := [];
                     keywords := {[ "backend_url" :=
                                      VStr (u ++ slashes n) ]} |} E st
         = (inr {| backend_url := u; timeout := 30 |}, st)).
Proof.
  split.
  - intros s. destruct (rstrip_slash_spec s) as [[n Hn] Hu].
    exists (rstrip_slash s), n.
    split; [apply init_positional | split; [exact Hn | exact Hu]].
  - intros u n Hu.
    assert (Hstrip : rstrip_slash (u ++ slashes n) = u)
      by (apply (rstrip_slash_unique _ u n); [reflexivity | exact Hu]).
    rewrite init_positional, init_keyword, Hstrip. split; reflexivity.
Qed.

Lemma constructor_strips_trailing_slashes_witness :
  __init__ {| positional := [VStr "http://git.local:9000//"];
              keywords := ∅ |} (quiet_env refused) fresh
  = (inr {| backend_url := "http://git.local:9000"; timeout := 30 |}, fresh).
Proof.
  refine (proj1 (proj2 (constructor_strips_trailing_slashes
                          (quiet_env refused) fresh)
                   "http://git.local:9000" 2%nat _)).
  change "http://git.local:9000" with (rstrip_slash "http://git.local:9000").
  apply rstrip_slash_spec.
Defined.


(** * The package exports *)




(** * From the bridge's answer to the caller *)

(** X18: when the bridge answers 200 with a body whose [success] is truthy,
    a helper or an entry point whose call is accepted returns the body's
    [result] as it is (the empty mapping when the key is missing): nothing
    is wrapped around it. *)
Theorem accepted_calls_return_the_result (E : env) (st : state)
    (resp : response) (body : gmap string value) :
  (∀ history req, bridge E history req = inr resp) →
  status_code resp = 200 →
  json resp = inr (VDict body) →
  truthy (default (VBool false) (body !! "success")) = true →
  (∀ h self c,
     (∃ e, helper_run h self c E st = (inl e, st))
     ∨ outcome (helper_run h self c E st)
       = inr (default (VDict ∅) (body !! "result")))
  ∧ (∀ p c,
       (∃ e, entry_run p c E st = (inl e, st))
       ∨ outcome (entry_run p c E st)
         = inr (default (VDict ∅) (body !! "result"))).
Proof.
  intros Hbridge Hstatus Hjson Hsuccess.
  assert (Hhelper : ∀ h self c,
            (∃ e, helper_run h self c E st = (inl e, st))
            ∨ outcome (helper_run h self c E st)
              = inr (default (VDict ∅) (body !! "result"))).
  { intros h self c.
    destruct (helper_delegates h self c E st) as [Hrejected | [d ->]];
      [left; exact Hrejected | right].
    rewrite call_mcp_tool_run, Hbridge. unfold verdict.
    rewrite Hstatus, Hjson. cbn [Z.eqb Pos.eqb]. rewrite Hsuccess.
    reflexivity. }
  split; [exact Hhelper |].
  intros p c.
  destruct (entry_delegates p c E st) as [Hrejected | [c' ->]];
    [left; exact Hrejected | apply Hhelper].
Qed.

Lemma accepted_calls_return_the_result_witness :
  outcome (git_history_tool
             {| positional := [VStr "/data"; VInt 3]; keywords := ∅ |}
             (quiet_env (inr log_body)) fresh)
  = inr (VList [VStr "a1b2c3"]).
Proof.
  destruct (proj2 (accepted_calls_return_the_result
                     (quiet_env (inr log_body)) fresh log_body
                     {[ "success" := VBool true;
                        "result" := VList [VStr "a1b2c3"] ]}
                     (fun _ _ => eq_refl) eq_refl eq_refl eq_refl)
              GitHistoryTool
              {| positional := [VStr "/data"; VInt 3]; keywords := ∅ |})
    as [[e Hrejected] | Hreturned].
  - discriminate Hrejected.
  - exact Hreturned.
Defined.
